(** * Text Summarizer API: a shallow embedding of [app.py]

    [app.py] wires three library objects into one LangServe route:

      prompt = ChatPromptTemplate.from_template("Summarize ...:\n\n{text}")
      llm    = ChatGroq(api_key=groq_api_key, model=..., temperature=0.3)
      chain  = prompt | llm | StrOutputParser()
      add_routes(app, chain, path="/summarize")

    The module-level statements of [app.py] are rendered one by one in
    [Module App].  The library calls they make (python-dotenv, the f-string
    formatter, langchain_core's runnables, LangServe's invoke handler,
    uvicorn) are rendered in the modules before it, each as the function the
    library runs for the call [app.py] makes.  Three things stay abstract
    and are parameters of the development: the remote model provider,
    Python's [str()] of a value that is not a str, and the source of run
    identifiers. *)

From Stdlib Require Import ZArith QArith Ascii String.
From stdpp Require Import gmap strings list fin_maps.

Set Warnings "-register-all".
Local Open Scope string_scope.

(** ** Python data, exceptions and results *)

Module Py.

(** Plain data, as [json.loads] produces it and [json.dumps] accepts it. *)
Inductive json : Type :=
| JNull
| JBool (b : bool)
| JNum (n : Z)
| JStr (s : string)
| JArr (items : list json)
| JObj (fields : gmap string json).

(** What reaching the provider can go wrong with (spec section 7): the
    connection fails or times out, the key is refused (status 401), or the
    provider answers with another error status. *)
Inductive provider_error : Type :=
| TransportError
| AuthError
| ProviderError (status : Z) (msg : string).

(** The failures the provider's client sends the request again for: a
    failed connection, and the statuses 408, 409, 429 and 500 and above. *)
Definition retryable (e : provider_error) : bool :=
  match e with
  | TransportError => true
  | AuthError => false
  | ProviderError status _ =>
      bool_decide (status = 408 \/ status = 409 \/ status = 429 \/ 500 <= status)%Z
  end.

(** The exceptions the modelled code raises. *)
Inductive exn : Type :=
| KeyError (missing : list string)
| TypeError (msg : string)
| ValueError (msg : string)
| ValidationError (loc : list string)
| APIError (e : provider_error).

(** A computation that returns or raises. *)
Inductive result (A : Type) : Type :=
| Ok (a : A)
| Err (e : exn).
Arguments Ok {A} a.
Arguments Err {A} e.

#[global] Instance result_ret : MRet result := fun A a => Ok a.
#[global] Instance result_bind : MBind result := fun A B f r =>
  match r with
  | Ok a => f a
  | Err e => Err e
  end.
#[global] Instance result_fmap : FMap result := fun A B f r =>
  match r with
  | Ok a => Ok (f a)
  | Err e => Err e
  end.

Definition is_ok {A} (r : result A) : bool :=
  match r with Ok _ => true | Err _ => false end.

Definition nl : string := String "010"%char EmptyString.

End Py.
Export Py.

(** ** python-dotenv and [os.environ] *)

Module Dotenv.

(** The bindings of a parsed [.env] file, in file order, with the values
    as they are written.  A key that stands alone on its line has no
    value. *)
Definition bindings : Type := list (string * option string).

(** The longest prefix of [s] without a character of [stop], and what
    follows it. *)
Fixpoint span (stop : ascii -> bool) (s : string) : string * string :=
  match s with
  | EmptyString => (EmptyString, EmptyString)
  | String c rest =>
      if stop c then (EmptyString, s)
      else let '(a, b) := span stop rest in (String c a, b)
  end.

(** A variable reference, read after its opening [${]: [name}] or
    [name:-default}], with what follows the closing brace.  The name has
    no [}] and no [:], the default no [}]. *)
Definition match_variable (s : string) : option (string * option string * string) :=
  let '(name, r) := span (fun c => bool_decide (c = "}"%char \/ c = ":"%char)) s in
  match r with
  | String "}"%char rest => Some (name, None, rest)
  | String ":"%char (String "-"%char r2) =>
      let '(default, r3) := span (fun c => bool_decide (c = "}"%char)) r2 in
      match r3 with
      | String "}"%char rest => Some (name, Some default, rest)
      | _ => None
      end
  | _ => None
  end.

(** [Variable.resolve]: the value the name has, nothing for a name bound
    without a value, the default (or nothing) for an unbound name. *)
Definition resolve_variable (env : gmap string (option string)) (name : string)
    (default : option string) : string :=
  match env !! name with
  | Some (Some v) => v
  | Some None => EmptyString
  | None => match default with Some d => d | None => EmptyString end
  end.

(** A value with its variable references replaced, scanning from the
    left; text that is no reference is kept.  [fuel] bounds the scan and
    the length of the value is enough. *)
Fixpoint expand_from (fuel : nat) (env : gmap string (option string)) (s : string) : string :=
  match fuel with
  | O => EmptyString
  | S fuel' =>
      match s with
      | EmptyString => EmptyString
      | String "$"%char (String "{"%char s') =>
          match match_variable s' with
          | Some (name, default, rest) =>
              resolve_variable env name default +:+ expand_from fuel' env rest
          | None => String "$"%char (expand_from fuel' env (String "{"%char s'))
          end
      | String c rest => String c (expand_from fuel' env rest)
      end
  end.

Definition expand (env : gmap string (option string)) (s : string) : string :=
  expand_from (String.length s) env s.

(** [resolve_variables] with [override=False]: the bindings are taken in
    file order; a value is expanded in the bindings read so far overlaid
    with [os.environ], and a later binding of a key replaces an earlier
    one. *)
Fixpoint resolve_variables (environ : gmap string string) (values : bindings)
    (new_values : gmap string (option string)) : gmap string (option string) :=
  match values with
  | [] => new_values
  | (name, value) :: rest =>
      let env := (Some <$> environ) ∪ new_values in
      resolve_variables environ rest (<[ name := expand env <$> value ]> new_values)
  end.

(** [DotEnv.dict()]. *)
Definition dict (environ : gmap string string) (file : bindings) : gmap string (option string) :=
  resolve_variables environ file ∅.

(** [load_dotenv()] with its defaults ([override=False]): every binding of
    the file that has a value is copied into [os.environ] unless the
    variable is already set there.  [None] is "no .env file found". *)
Definition load_dotenv (file : option bindings) (environ : gmap string string)
  : gmap string string :=
  match file with
  | None => environ
  | Some f => environ ∪ omap id (dict environ f)
  end.

(** [os.environ[key]]: a missing variable raises [KeyError]. *)
Definition getitem (environ : gmap string string) (key : string) : result string :=
  match environ !! key with
  | Some v => Ok v
  | None => Err (KeyError [key])
  end.

End Dotenv.

(** ** The f-string formatter behind the prompt template *)

Module Formatter.

(** A parsed template: literal text and replacement fields in turn. *)
Inductive piece : Type :=
| Literal (s : string)
| Field (name : string).

Definition lit (c : ascii) (ps : list piece) : list piece :=
  match ps with
  | Literal l :: rest => Literal (String c l) :: rest
  | _ => Literal (String c EmptyString) :: ps
  end.

(** [string.Formatter.parse]: [{{] and [}}] are escaped braces, [{name}] is
    a replacement field.  [cur] is the field name read so far when the
    scan is inside a field.  Conversions ([!r]) and format specs ([:>8])
    are not told apart from the name; the template of [app.py] has
    neither. *)
Fixpoint parse_from (s : string) (cur : option string) : result (list piece) :=
  match cur with
  | Some name =>
      match s with
      | EmptyString => Err (ValueError "expected '}' before end of string")
      | String "}"%char rest => cons (Field name) <$> parse_from rest None
      | String "{"%char _ => Err (ValueError "unexpected '{' in field name")
      | String c rest => parse_from rest (Some (name +:+ String c EmptyString))
      end
  | None =>
      match s with
      | EmptyString => Ok []
      | String "{"%char (String "{"%char rest) => lit "{"%char <$> parse_from rest None
      | String "{"%char rest => parse_from rest (Some EmptyString)
      | String "}"%char (String "}"%char rest) => lit "}"%char <$> parse_from rest None
      | String "}"%char _ => Err (ValueError "Single '}' encountered in format string")
      | String c rest => lit c <$> parse_from rest None
      end
  end.

Definition parse (template : string) : result (list piece) :=
  parse_from template None.

(** The names of the replacement fields, each once. *)
Definition fields (ps : list piece) : list string :=
  remove_dups (omap (fun p => match p with Field n => Some n | Literal _ => None end) ps).

Section Format.
Context {V : Type} (str : V -> string).

(** [Formatter.vformat(template, (), kwargs)]: literals are copied, a
    field is replaced by [str] of the keyword argument of that name; the
    first field without an argument raises [KeyError].  Arguments no
    field names are not looked at. *)
Fixpoint vformat (ps : list piece) (kwargs : string -> option V) : result string :=
  match ps with
  | [] => Ok EmptyString
  | Literal l :: rest => String.append l <$> vformat rest kwargs
  | Field name :: rest =>
      match kwargs name with
      | None => Err (KeyError [name])
      | Some v => String.append (str v) <$> vformat rest kwargs
      end
  end.
End Format.

End Formatter.

(** ** langchain_core and langchain_groq: the three runnables and [|] *)

Module Langchain.
Import Formatter.

Inductive role : Type := System | Human | AI.

(** A chat message.  [response_metadata] is what the provider sent along
    with the text (token counts, finish reason, ...). *)
Record message : Type := {
  msg_role : role;
  content : string;
  response_metadata : gmap string json;
}.

Definition HumanMessage (text : string) : message :=
  {| msg_role := Human; content := text; response_metadata := ∅ |}.

Definition AIMessage (text : string) (metadata : gmap string json) : message :=
  {| msg_role := AI; content := text; response_metadata := metadata |}.

(** What the steps of the chain hand to each other: plain data (the input
    dict, the final str), a [ChatPromptValue], or a message. *)
Inductive value : Type :=
| VData (j : json)
| VPrompt (msgs : list message)
| VMessage (m : message).

Definition VStr (s : string) : value := VData (JStr s).
Definition VDict (d : gmap string json) : value := VData (JObj d).

(** The chat-completion call as the provider sees it. *)
Record completion_request : Type := {
  req_api_key : string;
  req_model : string;
  req_temperature : Q;
  req_messages : list (string * string);
}.

Record completion : Type := {
  completion_content : string;
  completion_metadata : gmap string json;
}.

(** The state a request runs in: the provider's own state, the
    chat-completion calls the chain has made so far (oldest first), the
    requests the client has sent to the provider for them (a call that
    fails is sent again, so one call can stand for several requests), and
    the number of runs started. *)
Record world (PS : Type) : Type := {
  provider_state : PS;
  provider_calls : list completion_request;
  provider_requests : list completion_request;
  runs : nat;
}.
Arguments provider_state {PS} w.
Arguments provider_calls {PS} w.
Arguments provider_requests {PS} w.
Arguments runs {PS} w.

(** *** ChatPromptTemplate *)

Record MessagePromptTemplate : Type := {
  mt_role : role;
  mt_template : list piece;
}.

Record ChatPromptTemplate : Type := {
  messages : list MessagePromptTemplate;
  input_variables : list string;
}.

(** [ChatPromptTemplate.from_template(template)]: one human message
    template; the input variables are the fields of the template. *)
Definition from_template (template : string) : result ChatPromptTemplate :=
  ps ← parse template;
  mret {| messages := [ {| mt_role := Human; mt_template := ps |} ];
          input_variables := fields ps |}.

(** *** ChatGroq *)

Record ChatGroq : Type := {
  api_key : string;
  model : string;
  temperature : Q;
}.

Definition role_name (r : role) : string :=
  match r with
  | System => "system"
  | Human => "user"
  | AI => "assistant"
  end.

(** [BaseChatModel._convert_input]: a prompt value gives its messages, a
    str is one human message, anything else is refused.  (A list would be
    read as a sequence of messages by the library; no step of this chain
    produces one and it is refused here.) *)
Definition convert_input (v : value) : result (list message) :=
  match v with
  | VPrompt msgs => Ok msgs
  | VData (JStr s) => Ok [HumanMessage s]
  | _ => Err (ValueError "Invalid input type")
  end.

(** [ChatGroq]'s default for [max_retries], which [app.py] leaves alone. *)
Definition default_max_retries : nat := 2.

Definition build_request (llm : ChatGroq) (msgs : list message) : completion_request :=
  {| req_api_key := api_key llm;
     req_model := model llm;
     req_temperature := temperature llm;
     req_messages := (fun m => (role_name (msg_role m), content m)) <$> msgs |}.

(** *** StrOutputParser *)

(** [StrOutputParser().invoke]: a message gives its text, a str is
    returned as it is; any other input has no text to take and the
    [Generation] built from it fails validation. *)
Definition parse_output (v : value) : result value :=
  match v with
  | VMessage m => Ok (VStr (content m))
  | VData (JStr s) => Ok (VStr s)
  | _ => Err (ValidationError ["text"])
  end.

Section Runtime.
Context {PS : Type}.
(** The remote provider: from its state and a request, a completion or
    a failure, and its next state. *)
Context (provider : PS -> completion_request -> (provider_error + completion) * PS).
(** Python's [str()] of a value that is not a str. *)
Context (repr : value -> string).

Definition py_str (v : value) : string :=
  match v with
  | VData (JStr s) => s
  | _ => repr v
  end.

(** [BasePromptTemplate._validate_input]: a dict is taken as the keyword
    arguments; any other input stands for the single input variable, if
    there is exactly one.  Every input variable must be present. *)
Definition validate_input (p : ChatPromptTemplate) (v : value)
  : result (string -> option value) :=
  kwargs ← match v with
           | VData (JObj d) => Ok (fun k => VData <$> d !! k)
           | _ =>
               match input_variables p with
               | [var] => Ok (fun k => if decide (k = var) then Some v else None)
               | _ => Err (TypeError "Expected mapping type as input to ChatPromptTemplate")
               end
           end;
  match List.filter (fun k => negb (bool_decide (is_Some (kwargs k)))) (input_variables p) with
  | [] => Ok kwargs
  | missing => Err (KeyError missing)
  end.

(** [ChatPromptTemplate.format_messages], called with the keyword arguments. *)
Fixpoint format_messages (mts : list MessagePromptTemplate)
    (kwargs : string -> option value) : result (list message) :=
  match mts with
  | [] => Ok []
  | mt :: rest =>
      text ← vformat py_str (mt_template mt) kwargs;
      msgs ← format_messages rest kwargs;
      mret ({| msg_role := mt_role mt; content := text; response_metadata := ∅ |} :: msgs)
  end.

(** The input dict is unpacked into the keyword arguments of
    [self.format_prompt]: a key named [self] collides with the receiver
    and the call raises [TypeError]. *)
Definition keyword_call (kwargs : string -> option value) : result (string -> option value) :=
  match kwargs "self" with
  | Some _ => Err (TypeError "format_prompt() got multiple values for argument 'self'")
  | None => Ok kwargs
  end.

(** [prompt.invoke(input)]: validate, pass the input as keyword
    arguments, format, wrap in a prompt value. *)
Definition prompt_invoke (p : ChatPromptTemplate) (v : value) : result value :=
  validated ← validate_input p v;
  kwargs ← keyword_call validated;
  msgs ← format_messages (messages p) kwargs;
  mret (VPrompt msgs).

(** The client sends the request and, while the provider fails with a
    retryable failure and retries are left, sends it again; every request
    sent is recorded.  (The pause between two requests is not modelled.) *)
Fixpoint send (retries : nat) (req : completion_request) (st : PS)
    (sent : list completion_request)
  : (provider_error + completion) * PS * list completion_request :=
  let '(answer, st') := provider st req in
  match answer, retries with
  | inl e, S n =>
      if retryable e then send n req st' (sent ++ [req])%list
      else (answer, st', (sent ++ [req])%list)
  | _, _ => (answer, st', (sent ++ [req])%list)
  end.

(** [llm.invoke(input)]: one chat-completion call, sent to the provider
    with up to [default_max_retries] retries; the completion becomes an AI
    message, the failure left after the retries is raised. *)
Definition chat_invoke (llm : ChatGroq) (v : value) (w : world PS)
  : result value * world PS :=
  match convert_input v with
  | Err e => (Err e, w)
  | Ok msgs =>
      let req := build_request llm msgs in
      let '(answer, st, sent) :=
        send default_max_retries req (provider_state w) (provider_requests w) in
      let w' := {| provider_state := st;
                   provider_calls := provider_calls w ++ [req];
                   provider_requests := sent;
                   runs := runs w |} in
      match answer with
      | inl e => (Err (APIError e), w')
      | inr c => (Ok (VMessage (AIMessage (completion_content c) (completion_metadata c))), w')
      end
  end.

(** *** Runnables *)

(** A runnable that is not a sequence: its [invoke] and the input
    variables of its input schema ([None]: any input). *)
Record Step : Type := {
  invoke : value -> world PS -> result value * world PS;
  input_schema : option (list string);
}.

Inductive Runnable : Type :=
| Single (s : Step)
| RunnableSequence (steps : list Step).

Definition steps_of (r : Runnable) : list Step :=
  match r with
  | Single s => [s]
  | RunnableSequence steps => steps
  end.

(** [a | b]: a sequence of the steps of both ([Runnable.__or__] and
    [RunnableSequence.__or__] flatten sequences). *)
Definition pipe (a b : Runnable) : Runnable :=
  RunnableSequence (steps_of a ++ steps_of b).

(** The loop of [RunnableSequence.invoke]:
    [for step in self.steps: input = step.invoke(input)]. *)
Fixpoint run_steps (steps : list Step) (input : value) (w : world PS)
  : result value * world PS :=
  match steps with
  | [] => (Ok input, w)
  | step :: rest =>
      match invoke step input w with
      | (Ok output, w') => run_steps rest output w'
      | (Err e, w') => (Err e, w')
      end
  end.

Definition runnable_invoke (r : Runnable) (input : value) (w : world PS)
  : result value * world PS :=
  match r with
  | Single s => invoke s input w
  | RunnableSequence steps => run_steps steps input w
  end.

(** The input schema of a sequence is that of its first step. *)
Definition runnable_input_schema (r : Runnable) : option (list string) :=
  match steps_of r with
  | [] => None
  | s :: _ => input_schema s
  end.

Definition prompt_runnable (p : ChatPromptTemplate) : Runnable :=
  Single {| invoke := fun v w => (prompt_invoke p v, w);
            input_schema := Some (input_variables p) |}.

Definition llm_runnable (llm : ChatGroq) : Runnable :=
  Single {| invoke := chat_invoke llm; input_schema := None |}.

Definition StrOutputParser : Runnable :=
  Single {| invoke := fun v w => (parse_output v, w); input_schema := None |}.

End Runtime.

End Langchain.

(** ** FastAPI: the application object and request dispatch *)

Module Fastapi.
Import Langchain.

Record http_request : Type := {
  method : string;
  path : string;
  request_body : json;
}.

Record http_response : Type := {
  status : Z;
  response_body : json;
}.

Record CORSMiddleware : Type := {
  allow_origins : list string;
  allow_methods : list string;
  allow_headers : list string;
}.

Record route (PS : Type) : Type := {
  route_method : string;
  route_path : string;
  endpoint : json -> world PS -> http_response * world PS;
}.
Arguments route_method {PS} r.
Arguments route_path {PS} r.
Arguments endpoint {PS} r.

Record FastAPI (PS : Type) : Type := {
  title : string;
  version : string;
  description : string;
  middleware : list CORSMiddleware;
  routes : list (route PS);
}.
Arguments title {PS} f.
Arguments version {PS} f.
Arguments description {PS} f.
Arguments middleware {PS} f.
Arguments routes {PS} f.

Definition add_middleware {PS} (app : FastAPI PS) (m : CORSMiddleware) : FastAPI PS :=
  {| title := title app; version := version app; description := description app;
     middleware := m :: middleware app; routes := routes app |}.

Definition add_api_route {PS} (app : FastAPI PS) (r : route PS) : FastAPI PS :=
  {| title := title app; version := version app; description := description app;
     middleware := middleware app; routes := routes app ++ [r] |}.

Definition matches {PS} (req : http_request) (r : route PS) : bool :=
  bool_decide (route_method r = method req) && bool_decide (route_path r = path req).

(** The first route of the request's method and path answers it; with no
    such route the answer is 404. *)
Definition handle {PS} (app : FastAPI PS) (req : http_request) (w : world PS)
  : http_response * world PS :=
  match List.find (matches req) (routes app) with
  | Some r => endpoint r (request_body req) w
  | None => ({| status := 404; response_body := JObj {[ "detail" := JStr "Not Found" ]} |}, w)
  end.

End Fastapi.

(** ** LangServe: [add_routes] and its invoke endpoint *)

Module Langserve.
Import Langchain Fastapi.

(** [InvokeRequestShallowValidator]: the body is an object with an
    [input]; its [config], when there is one, is an object or null.
    [kwargs] is not looked at.  The result is the input and the config. *)
Definition shallow_validate (body : json) : result (json * option json) :=
  match body with
  | JObj o =>
      match o !! "input" with
      | None => Err (ValidationError ["body"; "input"])
      | Some input =>
          match o !! "config" with
          | None => Ok (input, None)
          | Some (JObj c) => Ok (input, Some (JObj c))
          | Some JNull => Ok (input, Some JNull)
          | Some _ => Err (ValidationError ["body"; "config"])
          end
      end
  | _ => Err (ValidationError ["body"])
  end.

(** [_unpack_request_config]: a config that is no mapping (null is what the
    shallow validation lets through) raises [TypeError]; the chain has no
    configurable field, so every object is taken. *)
Definition unpack_request_config (config : option json) : result () :=
  match config with
  | Some (JObj _) | None => Ok ()
  | Some _ => Err (TypeError "Expected a string, dict or BaseModel")
  end.

(** Validation against the prompt's input model: every input variable is
    a required str field.  The validated model is unpacked into a dict of
    its declared fields, so keys the schema does not declare are gone. *)
Fixpoint validate_fields (vars : list string) (d : gmap string json)
  : result (gmap string json) :=
  match vars with
  | [] => Ok ∅
  | k :: rest =>
      match d !! k with
      | Some (JStr s) => insert k (JStr s) <$> validate_fields rest d
      | _ => Err (ValidationError ["body"; "input"; k])
      end
  end.

Definition validate_against (schema : option (list string)) (input : json) : result value :=
  match schema with
  | None => Ok (VData input)
  | Some vars =>
      match input with
      | JObj d => VDict <$> validate_fields vars d
      | _ => Err (ValidationError ["body"; "input"])
      end
  end.

(** The config is unpacked before the input is validated. *)
Definition get_config_and_input (schema : option (list string)) (body : json) : result value :=
  validated ← shallow_validate body;
  _ ← unpack_request_config validated.2;
  validate_against schema validated.1.

Definition type_name (r : role) : string :=
  match r with
  | System => "system"
  | Human => "human"
  | AI => "ai"
  end.

Definition message_json (m : message) : json :=
  JObj {[ "type" := JStr (type_name (msg_role m));
          "content" := JStr (content m);
          "response_metadata" := JObj (response_metadata m) ]}.

(** The output of the runnable as JSON. *)
Definition serialize (v : value) : json :=
  match v with
  | VData j => j
  | VMessage m => message_json m
  | VPrompt msgs => JObj {[ "messages" := JArr (message_json <$> msgs) ]}
  end.

Definition validation_detail (e : exn) : json :=
  match e with
  | ValidationError loc => JObj {[ "detail" := JArr [JObj {[ "loc" := JArr (JStr <$> loc) ]}] ]}
  | _ => JObj {[ "detail" := JArr [] ]}
  end.

Section Routes.
Context {PS : Type}.
(** The identifier given to the n-th run. *)
Context (uuid4 : nat -> string).

(** A run is started: it takes the next identifier. *)
Definition start_run (w : world PS) : world PS :=
  {| provider_state := provider_state w;
     provider_calls := provider_calls w;
     provider_requests := provider_requests w;
     runs := S (runs w) |}.

(** The answer to a run: its output wrapped in [output], or 500 for the
    exception it raised. *)
Definition respond (run_id : string) (r : result value) : http_response :=
  match r with
  | Ok output =>
      {| status := 200;
         response_body :=
           JObj {[ "output" := serialize output;
                   "metadata" := JObj {[ "run_id" := JStr run_id ]} ]} |}
  | Err _ => {| status := 500; response_body := JStr "Internal Server Error" |}
  end.

(** The answer to a body that is refused before the run: 422 with the
    detail for a validation error, 500 for any other exception. *)
Definition refuse (e : exn) : http_response :=
  match e with
  | ValidationError loc =>
      {| status := 422; response_body := validation_detail (ValidationError loc) |}
  | _ => {| status := 500; response_body := JStr "Internal Server Error" |}
  end.

(** [POST {path}/invoke]: a body the validation or the unpacking of the
    config raises for is refused before anything runs; otherwise the
    runnable is invoked on the validated input and its result is the
    answer. *)
Definition invoke_endpoint (runnable : Runnable (PS := PS)) (body : json) (w : world PS)
  : http_response * world PS :=
  match get_config_and_input (runnable_input_schema runnable) body with
  | Err e => (refuse e, w)
  | Ok input =>
      let '(r, w') := runnable_invoke runnable input (start_run w) in
      (respond (uuid4 (runs w)) r, w')
  end.

(** [add_routes(app, runnable, path=...)]: the invoke route.  (The
    batch, stream, schema and playground routes LangServe registers
    next to it are left out.) *)
Definition add_routes (app : FastAPI PS) (runnable : Runnable) (path : string) : FastAPI PS :=
  add_api_route app
    {| route_method := "POST";
       route_path := path +:+ "/invoke";
       endpoint := invoke_endpoint runnable |}.
End Routes.

End Langserve.

(** ** [app.py] *)

Module App.
Import Dotenv Langchain Fastapi Langserve.

Definition TEMPLATE : string :=
  "Summarize the following text clearly and concisely:" +:+ nl +:+ nl +:+ "{text}".

(** What running the module ends in: an exception at module level, the
    module imported with [app] built, or [uvicorn.run] listening. *)
Inductive outcome (PS : Type) : Type :=
| Raised (e : exn)
| Imported (app : FastAPI PS)
| Serving (app : FastAPI PS) (host : string) (port : Z).
Arguments Raised {PS} e.
Arguments Imported {PS} app.
Arguments Serving {PS} app host port.

Section Module.
Context {PS : Type}.
Context (provider : PS -> completion_request -> (provider_error + completion) * PS).
Context (repr : value -> string).
Context (uuid4 : nat -> string).

(** [groq_api_key = os.environ["GROQ_API_KEY"]] *)
Definition groq_api_key (environ : gmap string string) : result string :=
  getitem environ "GROQ_API_KEY".

(** [app = FastAPI(...)] followed by [app.add_middleware(CORSMiddleware, ...)] *)
Definition app : FastAPI PS :=
  add_middleware
    {| title := "Text Summarizer API";
       version := "1.0";
       description := "Text summarization using LangServe + Groq";
       middleware := [];
       routes := [] |}
    {| allow_origins := ["*"]; allow_methods := ["*"]; allow_headers := ["*"] |}.

(** [llm = ChatGroq(api_key=groq_api_key, model=..., temperature=0.3)] *)
Definition llm (key : string) : ChatGroq :=
  {| api_key := key; model := "llama-3.1-8b-instant"; temperature := 3 # 10 |}.

(** [prompt = ChatPromptTemplate.from_template(...)] *)
Definition prompt : result ChatPromptTemplate := from_template TEMPLATE.

(** [chain = prompt | llm | StrOutputParser()] *)
Definition chain (key : string) : result Runnable :=
  p ← prompt;
  mret (pipe (pipe (prompt_runnable repr p) (llm_runnable provider (llm key)))
             StrOutputParser).

(** [uvicorn.run(app, host=..., port=...)] *)
Definition uvicorn_run (a : FastAPI PS) (host : string) (port : Z) : outcome PS :=
  Serving a host port.

(** The module, statement by statement.  [name] is [__name__]. *)
Definition run_module (name : string) (dotenv : option bindings)
    (environ : gmap string string) : outcome PS :=
  let environ := load_dotenv dotenv environ in
  match (key ← groq_api_key environ;
         c ← chain key;
         mret (add_routes uuid4 app c "/summarize")) with
  | Err e => Raised e
  | Ok a =>
      if decide (name = "__main__")
      then uvicorn_run a "localhost" 8000
      else Imported a
  end.

(** The application a run of the module leaves behind, if any. *)
Definition application (o : outcome PS) : option (FastAPI PS) :=
  match o with
  | Raised _ => None
  | Imported a | Serving a _ _ => Some a
  end.

(** Where the process listens, if it does. *)
Definition listener (o : outcome PS) : option (string * Z) :=
  match o with
  | Serving _ host port => Some (host, port)
  | _ => None
  end.

(** A request sent to what the run left behind: answered by the
    application if there is one, not answered at all otherwise. *)
Definition serve (o : outcome PS) (req : http_request) (w : world PS)
  : option (http_response * world PS) :=
  match application o with
  | Some a => Some (handle a req w)
  | None => None
  end.

(** The same request sent twice, the second time in the world the
    first left. *)
Definition serve_twice (o : outcome PS) (req : http_request) (w : world PS)
  : option (http_response * http_response * world PS) :=
  match serve o req w with
  | Some (r1, w1) =>
      match serve o req w1 with
      | Some (r2, w2) => Some (r1, r2, w2)
      | None => None
      end
  | None => None
  end.

End Module.

(** The request [POST /summarize/invoke] with body [body]. *)
Definition post_invoke (body : json) : http_request :=
  {| method := "POST"; path := "/summarize/invoke"; request_body := body |}.

(** The body [{"input": input}]. *)
Definition invoke_body (input : json) : json := JObj {[ "input" := input ]}.

(** The dict [{"text": s}]. *)
Definition text_input (s : string) : gmap string json := {[ "text" := JStr s ]}.

(** The [text] of a request body, if its input has one. *)
Definition request_text (body : json) : option json :=
  match body with
  | JObj o =>
      match o !! "input" with
      | Some (JObj d) => d !! "text"
      | _ => None
      end
  | _ => None
  end.


(** The [output] field of a response, if it has one. *)
Definition output_of (r : http_response) : option json :=
  match response_body r with
  | JObj o => o !! "output"
  | _ => None
  end.

(** The template up to its slot. *)
Definition PREFIX : string :=
  "Summarize the following text clearly and concisely:" +:+ nl +:+ nl.

(** *** The pipeline in the words of the specification

    Three stages, each taking the output of the one before it: Prompt
    Builder, Summarization Client, Response Extractor.  These are the
    definitions the chain of [app.py] is compared with. *)
Section Stages.
Context {PS : Type}.
Context (provider : PS -> completion_request -> (provider_error + completion) * PS).
Context (repr : value -> string).

Definition prompt_builder (v : value) : result value :=
  p ← prompt;
  prompt_invoke repr p v.

Definition summarization_client (key : string) (v : value) (w : world PS)
  : result value * world PS :=
  chat_invoke provider (llm key) v w.

Definition response_extractor (v : value) : result value := parse_output v.

Definition pipeline (key : string) (v : value) (w : world PS) : result value * world PS :=
  match prompt_builder v with
  | Err e => (Err e, w)
  | Ok rendered =>
      match summarization_client key rendered w with
      | (Err e, w') => (Err e, w')
      | (Ok raw, w') => (response_extractor raw, w')
      end
  end.

(** A functioning provider answers every request with a completion
    that has some text. *)
Definition functioning : Prop :=
  forall st req, exists c st',
    provider st req = (inr c, st') /\ completion_content c <> EmptyString.

(** A provider stubbed to return the constant [c]. *)
Definition constant_stub (c : completion) : Prop :=
  forall st req, (provider st req).1 = inr c.
End Stages.

(** A response has the text field when it is a message or already a str. *)
Definition has_text (v : value) : bool :=
  match v with
  | VMessage _ | VData (JStr _) => true
  | _ => false
  end.

End App.

(** ** A provider stub, to run the model on concrete requests *)

Module Stub.
Import Langchain.

(** The stub counts its calls and always answers with the same summary. *)
Definition provider (n : nat) (req : completion_request)
  : (provider_error + completion) * nat :=
  (inr {| completion_content := "A short summary.";
          completion_metadata := {[ "finish_reason" := JStr "stop" ]} |}, S n).

Definition repr (v : value) : string := "<object>".

Definition uuid4 (n : nat) : string := String (ascii_of_nat (48 + n)) EmptyString.

Definition world0 : world nat :=
  {| provider_state := 0; provider_calls := []; provider_requests := []; runs := 0 |}.

Definition environ : gmap string string := {[ "GROQ_API_KEY" := "gsk_test" ]}.

(** [python app.py] with the key set and no [.env] file. *)
Definition outcome : App.outcome nat :=
  App.run_module provider repr uuid4 "__main__" None environ.

(** An environment and a [.env] file that both ask for another address. *)
Definition environ_elsewhere : gmap string string :=
  <[ "HOST" := "0.0.0.0" ]> (<[ "PORT" := "9000" ]> environ).

Definition dotenv_elsewhere : Dotenv.bindings :=
  [("HOST", Some "0.0.0.0"); ("PORT", Some "9000")].

End Stub.

(** ** Several requests in a row, and the call [llm] is set up to make *)

Module Session.
Import Langchain Fastapi Langserve App.

(** Bodies posted to the invoke route one after the other, each in the
    world the one before it left. *)
Fixpoint serve_all {PS : Type} (o : outcome PS) (bodies : list json) (w : world PS)
  : option (list http_response * world PS) :=
  match bodies with
  | [] => Some ([], w)
  | body :: rest =>
      match serve o (post_invoke body) w with
      | None => None
      | Some (r, w1) =>
          match serve_all o rest w1 with
          | None => None
          | Some (rs, w2) => Some (r :: rs, w2)
          end
      end
  end.

(** A body that passes the validation of the invoke route of [chain]. *)
Definition accepted (body : json) : bool :=
  is_ok (get_config_and_input (Some ["text"]) body).

(** The text of a body that passes that validation. *)
Definition accepted_text (body : json) : option string :=
  match get_config_and_input (Some ["text"]) body with
  | Ok _ =>
      match request_text body with
      | Some (JStr s) => Some s
      | _ => None
      end
  | Err _ => None
  end.

(** The call [llm] makes for the text [s] when it holds the key [key]. *)
Definition summarize_call (key s : string) : completion_request :=
  build_request (llm key) [HumanMessage (PREFIX +:+ s)].

End Session.

(** ** A provider that cannot be reached *)

Module Outage.
Import Langchain.

Definition provider (n : nat) (req : completion_request)
  : (provider_error + completion) * nat :=
  (inl TransportError, S n).

(** [python app.py] with the key set, in front of that provider. *)
Definition outcome : App.outcome nat :=
  App.run_module provider Stub.repr Stub.uuid4 "__main__" None Stub.environ.

End Outage.

(** ** A provider that cannot be reached at first *)

Module Flaky.
Import Langchain.

(** The first request fails to connect; every later one is answered. *)
Definition provider (n : nat) (req : completion_request)
  : (provider_error + completion) * nat :=
  match n with
  | O => (inl TransportError, 1)
  | S _ => (inr {| completion_content := "A late summary."; completion_metadata := ∅ |}, S n)
  end.

Definition outcome : App.outcome nat :=
  App.run_module provider Stub.repr Stub.uuid4 "__main__" None Stub.environ.

End Flaky.

(** * Properties *)

Import Dotenv Formatter Langchain Fastapi Langserve App.

Lemma append_empty_r (s : string) : s +:+ EmptyString = s.
Proof.
  induction s as [|c s IH]; [reflexivity|].
  change (String c (s +:+ EmptyString) = String c s). by rewrite IH.
Qed.

(** The variable is missing after [load_dotenv] exactly when the process
    environment lacks it and the [.env] file gives it no value. *)
Lemma load_dotenv_lookup_None (file : option bindings) (environ : gmap string string) (k : string) :
  load_dotenv file environ !! k = None <->
  environ !! k = None /\
  (forall f, file = Some f -> dict environ f !! k = None \/ dict environ f !! k = Some None).
Proof.
  destruct file as [f|]; simpl.
  - rewrite lookup_union_None, lookup_omap. split.
    + intros [He Hf]. split; [done|]. intros f' [= <-].
      destruct (dict environ f !! k) as [[v|]|]; simpl in Hf; [done | by right | by left].
    + intros [He Hf]. split; [done|].
      destruct (Hf f eq_refl) as [-> | ->]; done.
  - split; [intros H; split; [done | intros f [=]] | by intros [H _]].
Qed.

Lemma load_dotenv_keeps (file : option bindings) (environ : gmap string string) (k v : string) :
  environ !! k = Some v -> load_dotenv file environ !! k = Some v.
Proof.
  intros H. destruct file as [f|]; simpl; [|done].
  by apply lookup_union_Some_l.
Qed.

Section Properties.
Context {PS : Type}.
Context (provider : PS -> completion_request -> (provider_error + completion) * PS).
Context (repr : value -> string).
Context (uuid4 : nat -> string).

(** *** The prompt *)

Lemma parse_TEMPLATE : parse TEMPLATE = Ok [Literal PREFIX; Field "text"].
Proof. reflexivity. Qed.

Lemma prompt_eq :
  prompt = Ok {| messages := [ {| mt_role := Human;
                                  mt_template := [Literal PREFIX; Field "text"] |} ];
                 input_variables := ["text"] |}.
Proof. reflexivity. Qed.

Lemma prompt_builder_dict (d : gmap string json) (v : json) :
  d !! "text" = Some v ->
  d !! "self" = None ->
  prompt_builder repr (VDict d)
  = Ok (VPrompt [HumanMessage (PREFIX +:+ py_str repr (VData v))]).
Proof.
  intros H Hself. unfold prompt_builder. rewrite prompt_eq. cbn.
  unfold prompt_invoke, validate_input. cbn. rewrite !H. cbn.
  unfold keyword_call. rewrite Hself. cbn.
  rewrite H. cbn. by rewrite append_empty_r.
Qed.

(** A dict with a key named [self] that has its text is refused by the
    keyword call. *)
Lemma prompt_builder_self (d : gmap string json) (v x : json) :
  d !! "text" = Some v ->
  d !! "self" = Some x ->
  exists msg, prompt_builder repr (VDict d) = Err (TypeError msg).
Proof.
  intros H Hself. unfold prompt_builder. rewrite prompt_eq. cbn.
  unfold prompt_invoke, validate_input. cbn. rewrite !H. cbn.
  unfold keyword_call. rewrite Hself. cbn. eauto.
Qed.

Lemma prompt_builder_missing (d : gmap string json) :
  d !! "text" = None ->
  prompt_builder repr (VDict d) = Err (KeyError ["text"]).
Proof.
  intros H. unfold prompt_builder. rewrite prompt_eq. cbn.
  unfold prompt_invoke, validate_input. cbn. by rewrite !H.
Qed.

Lemma prompt_builder_text (s : string) :
  prompt_builder repr (VDict (text_input s)) = Ok (VPrompt [HumanMessage (PREFIX +:+ s)]).
Proof.
  apply (prompt_builder_dict _ (JStr s)); [apply lookup_singleton_eq|].
  by apply lookup_singleton_ne.
Qed.

(** *** The chain *)

Lemma chain_invoke (key : string) (c : Runnable) (v : value) (w : world PS) :
  chain provider repr key = Ok c ->
  runnable_invoke c v w = pipeline provider repr key v w.
Proof.
  unfold chain, pipeline, prompt_builder. rewrite prompt_eq. cbn.
  intros [= <-]. cbn.
  destruct (prompt_invoke _ _ v) as [rendered|e]; cbn; [|done].
  unfold summarization_client, response_extractor.
  destruct (chat_invoke provider (llm key) rendered w) as [[raw|e] w']; [|done].
  by destruct (parse_output raw).
Qed.

Lemma chain_schema (key : string) (c : Runnable) :
  chain provider repr key = Ok c -> runnable_input_schema c = Some ["text"].
Proof. unfold chain. rewrite prompt_eq. cbn. by intros [= <-]. Qed.

Lemma chain_steps (key : string) (c : Runnable) :
  chain provider repr key = Ok c -> length (steps_of c) = 3.
Proof. unfold chain. rewrite prompt_eq. cbn. by intros [= <-]. Qed.

Lemma chain_ok (key : string) : exists c, chain provider repr key = Ok c.
Proof. unfold chain. rewrite prompt_eq. cbn. eauto. Qed.

(** *** The client's retries *)

(** A request the provider answers is sent once. *)
Lemma send_answered (n : nat) (req : completion_request) (st st' : PS)
    (sent : list completion_request) (c : completion) :
  provider st req = (inr c, st') ->
  send provider n req st sent = (inr c, st', (sent ++ [req])%list).
Proof. intros H. destruct n; simpl; by rewrite H. Qed.

(** Whatever the provider does, a call is sent at least once and at most
    once more than there are retries, each time as the same request. *)
Lemma send_bounds (n : nat) (req : completion_request) (st : PS)
    (sent : list completion_request) :
  exists k, 1 <= k <= S n /\
    (send provider n req st sent).2 = (sent ++ replicate k req)%list.
Proof.
  revert st sent. induction n as [|n IH]; intros st sent; simpl.
  - exists 1. split; [lia|]. by destruct (provider st req) as [[e|c] st'].
  - destruct (provider st req) as [[e|c] st']; [|exists 1; split; [lia|done]].
    destruct (retryable e); [|exists 1; split; [lia|done]].
    destruct (IH st' (sent ++ [req])%list) as (k & Hk & ->).
    exists (S k). split; [lia|]. by rewrite <- app_assoc.
Qed.

(** Against a provider that always fails the same way, the request is
    sent once, or once more than there are retries when the failure is
    retryable. *)
Lemma send_always_fails (e : provider_error) (n : nat) (req : completion_request)
    (st : PS) (sent : list completion_request) :
  (forall st req, (provider st req).1 = inl e) ->
  exists st',
    send provider n req st sent
    = (inl e, st', (sent ++ replicate (if retryable e then S n else 1) req)%list).
Proof.
  intros Hfail. revert st sent. induction n as [|n IH]; intros st sent; simpl.
  - specialize (Hfail st req). destruct (provider st req) as [answer st'].
    simpl in Hfail. subst answer. exists st'. by destruct (retryable e).
  - pose proof (Hfail st req) as H. destruct (provider st req) as [answer st'].
    simpl in H. subst answer. destruct (retryable e) eqn:E.
    + destruct (IH st' (sent ++ [req])%list) as [st'' ->]. rewrite ?E.
      exists st''. by rewrite <- app_assoc.
    + by exists st'.
Qed.

(** With the text in place the pipeline is one chat-completion call. *)
Lemma pipeline_text (key : string) (s : string) (w : world PS) :
  pipeline provider repr key (VDict (text_input s)) w =
  let req := build_request (llm key) [HumanMessage (PREFIX +:+ s)] in
  let '(answer, st, sent) :=
    send provider default_max_retries req (provider_state w) (provider_requests w) in
  let w' := {| provider_state := st;
               provider_calls := provider_calls w ++ [req];
               provider_requests := sent;
               runs := runs w |} in
  (match answer with
   | inl e => Err (APIError e)
   | inr c => Ok (VStr (completion_content c))
   end, w').
Proof.
  unfold pipeline. rewrite prompt_builder_text.
  unfold summarization_client, chat_invoke, convert_input.
  destruct (send provider default_max_retries _ _ _) as [[[e|c] st] sent]; reflexivity.
Qed.

(** *** Module load *)

Lemma run_module_loaded (name : string) (dotenv : option bindings)
    (environ : gmap string string) (key : string) :
  load_dotenv dotenv environ !! "GROQ_API_KEY" = Some key ->
  exists c, chain provider repr key = Ok c /\
    run_module provider repr uuid4 name dotenv environ =
    if decide (name = "__main__")
    then Serving (add_routes uuid4 app c "/summarize") "localhost" 8000
    else Imported (add_routes uuid4 app c "/summarize").
Proof.
  intros H. destruct (chain_ok key) as [c Hc]. exists c. split; [done|].
  unfold run_module, groq_api_key, getitem. rewrite H. cbn. by rewrite Hc.
Qed.

Lemma handle_invoke (c : Runnable) (body : json) (w : world PS) :
  handle (add_routes uuid4 app c "/summarize") (post_invoke body) w
  = invoke_endpoint uuid4 c body w.
Proof. reflexivity. Qed.

Lemma serve_loaded (name : string) (dotenv : option bindings)
    (environ : gmap string string) (key : string) :
  load_dotenv dotenv environ !! "GROQ_API_KEY" = Some key ->
  exists c, chain provider repr key = Ok c /\
    forall body w,
      serve (run_module provider repr uuid4 name dotenv environ) (post_invoke body) w
      = Some (invoke_endpoint uuid4 c body w).
Proof.
  intros H. destruct (run_module_loaded name _ _ _ H) as (c & Hc & Hrun).
  exists c. split; [done|]. intros body w. unfold serve. rewrite Hrun.
  by destruct (decide (name = "__main__")).
Qed.

(** *** Request validation *)

Lemma validate_text_ok (d : gmap string json) (s : string) :
  d !! "text" = Some (JStr s) ->
  get_config_and_input (Some ["text"]) (invoke_body (JObj d)) = Ok (VDict (text_input s)).
Proof.
  intros H. unfold get_config_and_input, invoke_body, shallow_validate.
  rewrite lookup_singleton_eq, lookup_singleton_ne by done. cbn.
  rewrite H. cbn. by rewrite insert_empty.
Qed.

(** What the validation of an input against the schema of the chain gives. *)
Lemma validate_against_text (input : json) :
  match validate_against (Some ["text"]) input with
  | Ok v => exists d s, input = JObj d /\ d !! "text" = Some (JStr s) /\ v = VDict (text_input s)
  | Err e => exists loc, e = ValidationError loc
  end.
Proof.
  destruct input as [| | | | |d]; cbn; eauto.
  destruct (d !! "text") as [[| | |s| |]|] eqn:E; cbn; eauto.
Qed.

Lemma validate_text_inv (body : json) (v : value) :
  get_config_and_input (Some ["text"]) body = Ok v ->
  exists s, request_text body = Some (JStr s) /\ v = VDict (text_input s).
Proof.
  unfold get_config_and_input, shallow_validate, request_text.
  destruct body as [| | | | |o]; try discriminate.
  destruct (o !! "input") as [input|]; [|discriminate].
  intros H.
  assert (validate_against (Some ["text"]) input = Ok v) as Hv.
  { destruct (o !! "config") as [[]|]; try discriminate; exact H. }
  clear H. pose proof (validate_against_text input) as Hi. rewrite Hv in Hi.
  destruct Hi as (d & s & -> & Hd & ->). exists s. by rewrite Hd.
Qed.



(** The invoke endpoint of the chain on a body that passes validation:
    one run of the pipeline on the dict of its text. *)
Lemma invoke_endpoint_text (key : string) (c : Runnable) (d : gmap string json)
    (s : string) (w : world PS) :
  chain provider repr key = Ok c ->
  d !! "text" = Some (JStr s) ->
  invoke_endpoint uuid4 c (invoke_body (JObj d)) w =
  let '(r, w') := pipeline provider repr key (VDict (text_input s)) (start_run w) in
  (respond (uuid4 (runs w)) r, w').
Proof.
  intros Hc Hd. unfold invoke_endpoint.
  rewrite (chain_schema _ _ Hc), (validate_text_ok _ _ Hd).
  by rewrite (chain_invoke _ _ _ _ Hc).
Qed.

Lemma respond_ok (run_id : string) (v : value) :
  status (respond run_id (Ok v)) = 200%Z /\
  output_of (respond run_id (Ok v)) = Some (serialize v).
Proof.
  split; [done|]. unfold output_of, respond. cbn.
  apply lookup_insert_eq.
Qed.

(** Against a provider stubbed to a constant, the answer to a body is
    fixed up to the identifier of the run. *)
Lemma invoke_endpoint_constant (key : string) (c : Runnable) (c0 : completion)
    (body : json) (w : world PS) :
  chain provider repr key = Ok c ->
  constant_stub provider c0 ->
  exists w',
    invoke_endpoint uuid4 c body w =
    (match get_config_and_input (Some ["text"]) body with
     | Err e => refuse e
     | Ok _ => respond (uuid4 (runs w)) (Ok (VStr (completion_content c0)))
     end, w').
Proof.
  intros Hc Hstub. unfold invoke_endpoint. rewrite (chain_schema _ _ Hc).
  destruct (get_config_and_input (Some ["text"]) body) as [v|e] eqn:E; [|eauto].
  apply validate_text_inv in E as (s & _ & ->).
  rewrite (chain_invoke _ _ _ _ Hc), (pipeline_text key s). cbn zeta.
  specialize (Hstub (provider_state (start_run w))
                    (build_request (llm key) [HumanMessage (PREFIX +:+ s)])).
  destruct (provider (provider_state (start_run w))
              (build_request (llm key) [HumanMessage (PREFIX +:+ s)])) as [answer st] eqn:Ep.
  simpl in Hstub. subst answer.
  rewrite (send_answered _ _ _ _ _ _ Ep). eauto.
Qed.

(** Run as a script, the module listens exactly when it loads, and then
    on the address written in [app.py]. *)
Lemma listener_main (dotenv : option bindings) (environ : gmap string string) :
  listener (run_module provider repr uuid4 "__main__" dotenv environ) =
  match load_dotenv dotenv environ !! "GROQ_API_KEY" with
  | Some _ => Some ("localhost", 8000%Z)
  | None => None
  end.
Proof.
  destruct (load_dotenv dotenv environ !! "GROQ_API_KEY") as [key|] eqn:E.
  - destruct (run_module_loaded "__main__" _ _ _ E) as (c & _ & ->). reflexivity.
  - unfold run_module, groq_api_key, getitem. by rewrite E.
Qed.

(** *** The application against its specification *)

(** C1: the chain built by [prompt | llm | StrOutputParser()] has three
    steps and invoking it is the Prompt Builder, then the Summarization
    Client on its output, then the Response Extractor on that; the
    endpoint answers a request with the result of these three stages on
    the dict of the request's text. *)
Theorem C1_chain_is_three_stage_pipeline (name : string) (dotenv : option bindings)
    (environ : gmap string string) (key : string) :
  load_dotenv dotenv environ !! "GROQ_API_KEY" = Some key ->
  exists c,
    chain provider repr key = Ok c /\
    length (steps_of c) = 3 /\
    (forall v w, runnable_invoke c v w = pipeline provider repr key v w) /\
    (forall (d : gmap string json) s w,
       d !! "text" = Some (JStr s) ->
       serve (run_module provider repr uuid4 name dotenv environ)
             (post_invoke (invoke_body (JObj d))) w
       = Some (let '(r, w') := pipeline provider repr key (VDict (text_input s)) (start_run w) in
               (respond (uuid4 (runs w)) r, w'))).
Proof.
  intros H. destruct (serve_loaded name _ _ _ H) as (c & Hc & Hserve).
  exists c. split; [done|]. split; [by eapply chain_steps|].
  split; [intros v w; by apply chain_invoke|].
  intros d s w Hd. rewrite Hserve. f_equal. by apply invoke_endpoint_text.
Qed.

(** C2: for every string [s] the Prompt Builder applied to [{"text": s}]
    renders the fixed template with [s] in its slot, as the content of
    the one human message of the prompt; for ["hello"] that content is
    the literal of the specification. *)
Theorem C2_prompt_builder_renders_template :
  (forall s,
     prompt_builder repr (VDict (text_input s))
     = Ok (VPrompt [HumanMessage
                      ("Summarize the following text clearly and concisely:"
                       +:+ nl +:+ nl +:+ s)])) /\
  prompt_builder repr (VDict (text_input "hello"))
  = Ok (VPrompt [HumanMessage "Summarize the following text clearly and concisely:

hello"]).
Proof.
  split.
  - intros s. rewrite prompt_builder_text. reflexivity.
  - rewrite prompt_builder_text. reflexivity.
Qed.

(** C3: the Response Extractor returns the text content of a model
    response as a plain string, whatever its metadata; for the content
    "A short summary." it returns exactly that; it succeeds exactly on
    inputs that have the text field. *)
Theorem C3_response_extractor_returns_content :
  (forall m, response_extractor (VMessage m) = Ok (VStr (content m))) /\
  (forall metadata,
     response_extractor (VMessage (AIMessage "A short summary." metadata))
     = Ok (VStr "A short summary.")) /\
  (forall v, is_ok (response_extractor v) = has_text v).
Proof.
  split; [done|]. split; [done|].
  intros [[]| |]; reflexivity.
Qed.


(** C5: with GROQ_API_KEY absent from [os.environ] when the module reads
    it, the module raises [KeyError] at load: nothing listens and no
    request is ever answered. *)
Theorem C5_missing_key_fails_at_load (name : string) (dotenv : option bindings)
    (environ : gmap string string) :
  load_dotenv dotenv environ !! "GROQ_API_KEY" = None ->
  run_module provider repr uuid4 name dotenv environ = Raised (KeyError ["GROQ_API_KEY"]) /\
  listener (run_module provider repr uuid4 name dotenv environ) = None /\
  (forall req w, serve (run_module provider repr uuid4 name dotenv environ) req w = None).
Proof.
  intros H.
  assert (run_module provider repr uuid4 name dotenv environ
          = Raised (KeyError ["GROQ_API_KEY"])) as ->.
  { unfold run_module, groq_api_key, getitem. by rewrite H. }
  done.
Qed.

(** C6: with a functioning provider, a request with a non-empty [text]
    is answered 200 with a body whose [output] is a non-empty string. *)
Theorem C6_nonempty_text_gives_200 (name : string) (dotenv : option bindings)
    (environ : gmap string string) (key : string) (s : string) (w : world PS) :
  load_dotenv dotenv environ !! "GROQ_API_KEY" = Some key ->
  functioning provider ->
  s <> EmptyString ->
  exists out w',
    serve (run_module provider repr uuid4 name dotenv environ)
          (post_invoke (invoke_body (JObj (text_input s)))) w
    = Some ({| status := 200;
               response_body :=
                 JObj {[ "output" := JStr out;
                         "metadata" := JObj {[ "run_id" := JStr (uuid4 (runs w)) ]} ]} |}, w')
    /\ out <> EmptyString.
Proof.
  intros H Hf _. destruct (serve_loaded name _ _ _ H) as (c & Hc & Hserve).
  rewrite Hserve.
  rewrite (invoke_endpoint_text key c _ s w Hc) by apply lookup_singleton_eq.
  rewrite (pipeline_text key s). cbn zeta.
  destruct (Hf (provider_state (start_run w))
               (build_request (llm key) [HumanMessage (PREFIX +:+ s)]))
    as (a & st' & Hp & Hne).
  rewrite (send_answered _ _ _ _ _ _ Hp). cbn. eauto.
Qed.

(** C7: against a provider stubbed to return a constant, the same
    request sent twice is answered both times, with the same status and
    the same [output]. *)
Theorem C7_same_request_same_output (name : string) (dotenv : option bindings)
    (environ : gmap string string) (key : string) (c0 : completion)
    (body : json) (w : world PS) :
  load_dotenv dotenv environ !! "GROQ_API_KEY" = Some key ->
  constant_stub provider c0 ->
  exists r1 r2 w2,
    serve_twice (run_module provider repr uuid4 name dotenv environ) (post_invoke body) w
    = Some (r1, r2, w2) /\
    status r1 = status r2 /\
    output_of r1 = output_of r2.
Proof.
  intros H Hstub. destruct (serve_loaded name _ _ _ H) as (c & Hc & Hserve).
  unfold serve_twice. rewrite Hserve.
  destruct (invoke_endpoint_constant key c c0 body w Hc Hstub) as [w1 ->].
  rewrite Hserve.
  destruct (invoke_endpoint_constant key c c0 body w1 Hc Hstub) as [w2 ->].
  eexists _, _, _. split; [reflexivity|].
  destruct (get_config_and_input (Some ["text"]) body) as [v|e]; [|done].
  split; [done|].
  by rewrite !(proj2 (respond_ok _ _)).
Qed.

(** C8 (amended): run as a script, a module that loads listens on host
    localhost and port 8000, the address written in the code. *)
Theorem C8_listens_on_localhost_8000 (dotenv : option bindings)
    (environ : gmap string string) (key : string) :
  load_dotenv dotenv environ !! "GROQ_API_KEY" = Some key ->
  listener (run_module provider repr uuid4 "__main__" dotenv environ)
  = Some ("localhost", 8000%Z).
Proof. intros H. by rewrite listener_main, H. Qed.


(** C10 (amended): two input dicts with the same value under [text] and
    no key named [self] render the same prompt, whatever else they
    hold. *)
Theorem C10_prompt_depends_only_on_text (d1 d2 : gmap string json) (v : json) :
  d1 !! "text" = Some v ->
  d2 !! "text" = Some v ->
  d1 !! "self" = None ->
  d2 !! "self" = None ->
  prompt_builder repr (VDict d1) = prompt_builder repr (VDict d2).
Proof.
  intros H1 H2 S1 S2.
  by rewrite (prompt_builder_dict _ _ H1 S1), (prompt_builder_dict _ _ H2 S2).
Qed.

End Properties.

(** ** The same properties on the stub *)

Lemma C1_witness :
  exists c,
    chain Stub.provider Stub.repr "gsk_test" = Ok c /\
    length (steps_of c) = 3 /\
    (forall v w, runnable_invoke c v w = pipeline Stub.provider Stub.repr "gsk_test" v w) /\
    (forall (d : gmap string json) s w,
       d !! "text" = Some (JStr s) ->
       serve Stub.outcome (post_invoke (invoke_body (JObj d))) w
       = Some (let '(r, w') := pipeline Stub.provider Stub.repr "gsk_test"
                                        (VDict (text_input s)) (start_run w) in
               (respond (Stub.uuid4 (runs w)) r, w'))).
Proof.
  apply (C1_chain_is_three_stage_pipeline Stub.provider Stub.repr Stub.uuid4
           "__main__" None Stub.environ "gsk_test").
  reflexivity.
Defined.



Lemma C5_witness :
  run_module Stub.provider Stub.repr Stub.uuid4 "__main__" None ∅
  = Raised (KeyError ["GROQ_API_KEY"]) /\
  listener (run_module Stub.provider Stub.repr Stub.uuid4 "__main__" None ∅) = None /\
  (forall req w,
     serve (run_module Stub.provider Stub.repr Stub.uuid4 "__main__" None ∅) req w = None).
Proof.
  apply (C5_missing_key_fails_at_load Stub.provider Stub.repr Stub.uuid4 "__main__" None ∅).
  reflexivity.
Defined.

Lemma C6_witness :
  exists out w',
    serve Stub.outcome
          (post_invoke (invoke_body (JObj (text_input "The quick brown fox.")))) Stub.world0
    = Some ({| status := 200;
               response_body :=
                 JObj {[ "output" := JStr out;
                         "metadata" := JObj {[ "run_id" := JStr (Stub.uuid4 0) ]} ]} |}, w')
    /\ out <> EmptyString.
Proof.
  apply (C6_nonempty_text_gives_200 Stub.provider Stub.repr Stub.uuid4
           "__main__" None Stub.environ "gsk_test" "The quick brown fox." Stub.world0).
  - reflexivity.
  - intros st req. eexists _, _. split; [reflexivity | discriminate].
  - discriminate.
Defined.

Lemma C7_witness :
  exists r1 r2 w2,
    serve_twice Stub.outcome (post_invoke (invoke_body (JObj (text_input "hello")))) Stub.world0
    = Some (r1, r2, w2) /\
    status r1 = status r2 /\
    output_of r1 = output_of r2.
Proof.
  apply (C7_same_request_same_output Stub.provider Stub.repr Stub.uuid4
           "__main__" None Stub.environ "gsk_test"
           {| completion_content := "A short summary.";
              completion_metadata := {[ "finish_reason" := JStr "stop" ]} |}).
  - reflexivity.
  - intros st req. reflexivity.
Defined.

Lemma C8_witness : listener Stub.outcome = Some ("localhost", 8000%Z).
Proof.
  apply (C8_listens_on_localhost_8000 Stub.provider Stub.repr Stub.uuid4
           None Stub.environ "gsk_test").
  reflexivity.
Defined.

(** C8 as stated fails: with the environment and the [.env] file both
    asking for 0.0.0.0:9000 the process still listens on localhost:8000,
    and no environment or [.env] file makes it listen anywhere else. *)
Lemma C8_counterexample_address_not_configurable :
  listener (run_module Stub.provider Stub.repr Stub.uuid4 "__main__"
              (Some Stub.dotenv_elsewhere) Stub.environ_elsewhere)
  = Some ("localhost", 8000%Z) /\
  ~ (exists dotenv environ host port,
       listener (run_module Stub.provider Stub.repr Stub.uuid4 "__main__" dotenv environ)
       = Some (host, port) /\
       (host, port) <> ("localhost", 8000%Z)).
Proof.
  split.
  - vm_compute. reflexivity.
  - intros (dotenv & environ & host & port & H & Hne).
    rewrite listener_main in H.
    destruct (load_dotenv dotenv environ !! "GROQ_API_KEY"); [|discriminate].
    injection H as <- <-. by apply Hne.
Qed.


Lemma C10_witness :
  prompt_builder Stub.repr (VDict (text_input "hello"))
  = prompt_builder Stub.repr
      (VDict (<[ "language" := JStr "en" ]> (<[ "max_words" := JNum 50 ]> (text_input "hello")))).
Proof.
  apply (C10_prompt_depends_only_on_text Stub.repr _ _ (JStr "hello"));
    vm_compute; reflexivity.
Defined.

(** C10 as stated fails: [{"text": "hello"}] and
    [{"text": "hello", "self": "x"}] hold the same text, and the first
    renders while the second is refused with [TypeError]. *)
Lemma C10_counterexample_self_key :
  text_input "hello" !! "text" = Some (JStr "hello") /\
  (<[ "self" := JStr "x" ]> (text_input "hello") : gmap string json) !! "text"
  = Some (JStr "hello") /\
  prompt_builder Stub.repr (VDict (text_input "hello"))
  <> prompt_builder Stub.repr (VDict (<[ "self" := JStr "x" ]> (text_input "hello"))).
Proof.
  split; [vm_compute; reflexivity|]. split; [vm_compute; reflexivity|].
  intros H. vm_compute in H. discriminate.
Qed.

(** * Further properties of [app.py] *)

Import Session.

Lemma resolve_variables_app (environ : gmap string string) (l1 l2 : bindings)
    (acc : gmap string (option string)) :
  resolve_variables environ (l1 ++ l2)%list acc
  = resolve_variables environ l2 (resolve_variables environ l1 acc).
Proof.
  revert acc. induction l1 as [|[k v] l1 IH]; intros acc; simpl; [done|]. apply IH.
Qed.

Lemma resolve_variables_other (environ : gmap string string) (l : bindings)
    (acc : gmap string (option string)) (k : string) :
  k ∉ l.*1 -> resolve_variables environ l acc !! k = acc !! k.
Proof.
  revert acc. induction l as [|[k' v] l IH]; intros acc Hk; simpl; [done|].
  simpl in Hk. apply not_elem_of_cons in Hk as [Hne Hk].
  rewrite IH by done. by apply lookup_insert_ne.
Qed.

(** The last binding of a key in the [.env] file is the one [dict] keeps,
    with its value expanded in what was read before it. *)
Lemma dict_last_binding (environ : gmap string string) (f1 f2 : bindings) (k : string)
    (v : option string) :
  k ∉ f2.*1 ->
  dict environ (f1 ++ (k, v) :: f2)%list !! k
  = Some (expand ((Some <$> environ) ∪ dict environ f1) <$> v).
Proof.
  intros Hk. unfold dict. rewrite resolve_variables_app. simpl.
  rewrite resolve_variables_other by done. apply lookup_insert_eq.
Qed.

Section Further.
Context {PS : Type}.
Context (provider : PS -> completion_request -> (provider_error + completion) * PS).
Context (repr : value -> string).
Context (uuid4 : nat -> string).

Lemma run_module_unloaded (name : string) (dotenv : option bindings)
    (environ : gmap string string) :
  load_dotenv dotenv environ !! "GROQ_API_KEY" = None ->
  run_module provider repr uuid4 name dotenv environ = Raised (KeyError ["GROQ_API_KEY"]).
Proof. intros H. unfold run_module, groq_api_key, getitem. by rewrite H. Qed.

Lemma run_steps_app (s1 s2 : list (Step (PS := PS))) (v : value) (w : world PS) :
  run_steps (s1 ++ s2)%list v w =
  match run_steps s1 v w with
  | (Ok x, w') => run_steps s2 x w'
  | (Err e, w') => (Err e, w')
  end.
Proof.
  revert v w. induction s1 as [|step s1 IH]; intros v w; simpl; [done|].
  destruct (invoke step v w) as [[x|e] w']; [apply IH | done].
Qed.

Lemma runnable_invoke_steps (r : Runnable (PS := PS)) (v : value) (w : world PS) :
  runnable_invoke r v w = run_steps (steps_of r) v w.
Proof.
  destruct r as [step|steps]; simpl; [|done].
  by destruct (invoke step v w) as [[x|e] w'].
Qed.

Lemma accepted_text_inv (body : json) :
  match accepted_text body with
  | Some s => get_config_and_input (Some ["text"]) body = Ok (VDict (text_input s))
  | None => exists e, get_config_and_input (Some ["text"]) body = Err e
  end.
Proof.
  unfold accepted_text.
  destruct (get_config_and_input (Some ["text"]) body) as [v|e] eqn:E; [|eauto].
  apply validate_text_inv in E as (s & -> & ->). done.
Qed.

(** The invoke endpoint of the chain, by the text of the body. *)
Lemma invoke_endpoint_by_text (key : string) (c : Runnable) (body : json) (w : world PS) :
  chain provider repr key = Ok c ->
  match accepted_text body with
  | Some s =>
      invoke_endpoint uuid4 c body w =
      let '(answer, st, sent) :=
        send provider default_max_retries (summarize_call key s)
             (provider_state w) (provider_requests w) in
      (respond (uuid4 (runs w))
         match answer with
         | inl e => Err (APIError e)
         | inr c0 => Ok (VStr (completion_content c0))
         end,
       {| provider_state := st;
          provider_calls := provider_calls w ++ [summarize_call key s];
          provider_requests := sent;
          runs := S (runs w) |})
  | None => exists e, invoke_endpoint uuid4 c body w = (refuse e, w)
  end.
Proof.
  intros Hc. pose proof (accepted_text_inv body) as Hb.
  unfold invoke_endpoint. rewrite (chain_schema _ _ _ _ Hc).
  destruct (accepted_text body) as [s|].
  - rewrite Hb, (chain_invoke _ _ _ _ _ _ Hc), (pipeline_text _ _ key s). cbn zeta.
    unfold summarize_call. cbn [provider_state provider_requests provider_calls runs start_run].
    by destruct (send provider default_max_retries _ _ _) as [[[e|c0] st] sent].
  - destruct Hb as [e ->]. eauto.
Qed.

(** The endpoint on the body [{"input": d}] whose dict has a str text. *)
Lemma accepted_text_invoke_body (d : gmap string json) (s : string) :
  d !! "text" = Some (JStr s) -> accepted_text (invoke_body (JObj d)) = Some s.
Proof.
  intros Hd. unfold accepted_text. rewrite (validate_text_ok _ _ Hd).
  unfold request_text, invoke_body. by rewrite lookup_singleton_eq, Hd.
Qed.

(** [kwargs] plays no part in the validation of a body. *)
Lemma get_config_and_input_kwargs (schema : option (list string)) (o : gmap string json)
    (k : json) :
  get_config_and_input schema (JObj (<[ "kwargs" := k ]> o))
  = get_config_and_input schema (JObj o).
Proof.
  unfold get_config_and_input, shallow_validate.
  by rewrite !lookup_insert_ne by done.
Qed.

(** X1: [a | b] is sequential composition for any two runnables, single
    or sequences: [a] runs first, [b] runs on its output in the world it
    left, and an exception of [a] ends the run before [b]; how the pipes
    are grouped makes no difference. *)
Theorem X1_pipe_is_sequential_composition :
  (forall (a b : Runnable (PS := PS)) v w,
     runnable_invoke (pipe a b) v w =
     match runnable_invoke a v w with
     | (Ok x, w') => runnable_invoke b x w'
     | (Err e, w') => (Err e, w')
     end) /\
  (forall a b c : Runnable (PS := PS), pipe (pipe a b) c = pipe a (pipe b c)).
Proof.
  split.
  - intros a b v w.
    rewrite (runnable_invoke_steps (pipe a b)), (runnable_invoke_steps a).
    simpl. rewrite run_steps_app.
    destruct (run_steps (steps_of a) v w) as [[x|e] w']; [|done].
    symmetry. apply runnable_invoke_steps.
  - intros a b c. unfold pipe. simpl. by rewrite app_assoc.
Qed.

(** X2: invoked on a dict without [text], the chain raises [KeyError] for
    [text] in the prompt and leaves the world as it was: the provider is
    not called. *)
Theorem X2_chain_without_text_raises_before_provider (key : string) (c : Runnable)
    (d : gmap string json) (w : world PS) :
  chain provider repr key = Ok c ->
  d !! "text" = None ->
  runnable_invoke c (VDict d) w = (Err (KeyError ["text"]), w).
Proof.
  intros Hc Hd. rewrite (chain_invoke _ _ _ _ _ _ Hc). unfold pipeline.
  by rewrite (prompt_builder_missing _ _ Hd).
Qed.

(** X3: a GROQ_API_KEY set in the process environment is the key the
    module reads, whatever a [.env] file says. *)
Theorem X3_environment_key_wins_over_dotenv (file : option bindings)
    (environ : gmap string string) (v : string) :
  environ !! "GROQ_API_KEY" = Some v ->
  groq_api_key (load_dotenv file environ) = Ok v.
Proof.
  intros H. unfold groq_api_key, getitem. by rewrite (load_dotenv_keeps _ _ _ _ H).
Qed.

(** X4: with GROQ_API_KEY not in the process environment, the module
    reads its last binding in the [.env] file, with the variable
    references in the value expanded in the bindings before it overlaid
    with the process environment. *)
Theorem X4_dotenv_supplies_missing_key (f1 f2 : bindings)
    (environ : gmap string string) (v : string) :
  environ !! "GROQ_API_KEY" = None ->
  "GROQ_API_KEY" ∉ f2.*1 ->
  groq_api_key (load_dotenv (Some (f1 ++ ("GROQ_API_KEY", Some v) :: f2)%list) environ)
  = Ok (expand ((Some <$> environ) ∪ dict environ f1) v).
Proof.
  intros He Hk. unfold groq_api_key, getitem, load_dotenv.
  rewrite lookup_union_r by done.
  by rewrite lookup_omap, (dict_last_binding _ _ _ _ _ Hk).
Qed.

(** X5: imported under another name the module does not listen, and it
    builds the application it builds when run as a script. *)
Theorem X5_imported_module_does_not_listen (name : string) (dotenv : option bindings)
    (environ : gmap string string) :
  name <> "__main__" ->
  listener (run_module provider repr uuid4 name dotenv environ) = None /\
  application (run_module provider repr uuid4 name dotenv environ)
  = application (run_module provider repr uuid4 "__main__" dotenv environ).
Proof.
  intros Hn.
  destruct (load_dotenv dotenv environ !! "GROQ_API_KEY") as [key|] eqn:E.
  - destruct (run_module_loaded provider repr uuid4 name _ _ _ E) as (c & Hc & ->).
    destruct (run_module_loaded provider repr uuid4 "__main__" _ _ _ E) as (c' & Hc' & ->).
    rewrite Hc in Hc'. injection Hc' as <-.
    by destruct (decide (name = "__main__")).
  - by rewrite !(run_module_unloaded _ _ _ E).
Qed.

(** X6: the application a load leaves behind carries the title, version
    and description written in [app.py] and exactly one middleware, the
    CORS middleware that allows every origin, method and header. *)
Theorem X6_loaded_app_keeps_cors_and_metadata (name : string) (dotenv : option bindings)
    (environ : gmap string string) (key : string) :
  load_dotenv dotenv environ !! "GROQ_API_KEY" = Some key ->
  exists a,
    application (run_module provider repr uuid4 name dotenv environ) = Some a /\
    middleware a = [ {| allow_origins := ["*"]; allow_methods := ["*"];
                        allow_headers := ["*"] |} ] /\
    title a = "Text Summarizer API" /\
    version a = "1.0" /\
    description a = "Text summarization using LangServe + Groq".
Proof.
  intros H. destruct (run_module_loaded provider repr uuid4 name _ _ _ H) as (c & _ & ->).
  by destruct (decide (name = "__main__")); eexists.
Qed.

(** X7: when the provider answers, the request is answered 200 with the
    provider's text as [output], unchanged and without the provider's
    metadata; the provider was called once and sent one request, with the
    key read at load, the model and temperature of [llm] and the rendered
    prompt as the one user message. *)
Theorem X7_success_answer_is_provider_text (name : string) (dotenv : option bindings)
    (environ : gmap string string) (key : string) (d : gmap string json) (s : string)
    (w : world PS) (c0 : completion) (st : PS) :
  load_dotenv dotenv environ !! "GROQ_API_KEY" = Some key ->
  d !! "text" = Some (JStr s) ->
  provider (provider_state w) (summarize_call key s) = (inr c0, st) ->
  serve (run_module provider repr uuid4 name dotenv environ)
        (post_invoke (invoke_body (JObj d))) w
  = Some ({| status := 200;
             response_body :=
               JObj {[ "output" := JStr (completion_content c0);
                       "metadata" := JObj {[ "run_id" := JStr (uuid4 (runs w)) ]} ]} |},
          {| provider_state := st;
             provider_calls := provider_calls w ++ [summarize_call key s];
             provider_requests := provider_requests w ++ [summarize_call key s];
             runs := S (runs w) |}) /\
  summarize_call key s
  = {| req_api_key := key;
       req_model := "llama-3.1-8b-instant";
       req_temperature := 3 # 10;
       req_messages := [("user", PREFIX +:+ s)] |}.
Proof.
  intros H Hd Hp. split; [|done].
  destruct (serve_loaded provider repr uuid4 name _ _ _ H) as (c & Hc & ->).
  pose proof (invoke_endpoint_by_text key c (invoke_body (JObj d)) w Hc) as He.
  rewrite (accepted_text_invoke_body _ _ Hd) in He.
  rewrite He, (send_answered _ _ _ _ _ _ _ Hp). done.
Qed.

(** X8: against a provider that fails every request the same way, the
    request is answered 500 with no [output] after one chat-completion
    call; the client sent its request three times when the failure is
    retryable and once when it is not. *)
Theorem X8_provider_failure_is_500 (name : string) (dotenv : option bindings)
    (environ : gmap string string) (key : string) (d : gmap string json) (s : string)
    (w : world PS) (e : provider_error) :
  load_dotenv dotenv environ !! "GROQ_API_KEY" = Some key ->
  d !! "text" = Some (JStr s) ->
  (forall st req, (provider st req).1 = inl e) ->
  exists r w',
    serve (run_module provider repr uuid4 name dotenv environ)
          (post_invoke (invoke_body (JObj d))) w
    = Some (r, w') /\
    status r = 500%Z /\
    output_of r = None /\
    provider_calls w' = (provider_calls w ++ [summarize_call key s])%list /\
    provider_requests w'
    = (provider_requests w
       ++ replicate (if retryable e then 3 else 1) (summarize_call key s))%list.
Proof.
  intros H Hd Hfail.
  destruct (serve_loaded provider repr uuid4 name _ _ _ H) as (c & Hc & ->).
  pose proof (invoke_endpoint_by_text key c (invoke_body (JObj d)) w Hc) as He.
  rewrite (accepted_text_invoke_body _ _ Hd) in He. rewrite He.
  destruct (send_always_fails provider e default_max_retries (summarize_call key s)
              (provider_state w) (provider_requests w) Hfail) as [st' ->].
  eexists _, _. split; [reflexivity|]. done.
Qed.

(** X9: after any number of requests to the invoke route, each is
    answered; the chat-completion calls made are exactly the calls for the
    texts of the accepted bodies, one each and in the order of the
    requests, all with the key read at load; the requests sent to the
    provider are requests of these calls, at least one and at most three
    for each. *)
Theorem X9_one_call_per_accepted_request (name : string) (dotenv : option bindings)
    (environ : gmap string string) (key : string) (bodies : list json) (w : world PS) :
  load_dotenv dotenv environ !! "GROQ_API_KEY" = Some key ->
  exists rs w' sent,
    serve_all (run_module provider repr uuid4 name dotenv environ) bodies w = Some (rs, w') /\
    length rs = length bodies /\
    provider_calls w'
    = (provider_calls w ++ (summarize_call key <$> omap accepted_text bodies))%list /\
    provider_requests w' = (provider_requests w ++ sent)%list /\
    length (omap accepted_text bodies) <= length sent <= 3 * length (omap accepted_text bodies) /\
    Forall (fun req => req ∈ summarize_call key <$> omap accepted_text bodies) sent.
Proof.
  intros H. destruct (serve_loaded provider repr uuid4 name _ _ _ H) as (c & Hc & Hserve).
  revert w. induction bodies as [|body rest IH]; intros w.
  - exists [], w, []. simpl. rewrite !app_nil_r. repeat split; [lia | lia | constructor].
  - simpl. rewrite Hserve.
    pose proof (invoke_endpoint_by_text key c body w Hc) as He.
    destruct (accepted_text body) as [s|].
    + rewrite He.
      destruct (send_bounds provider default_max_retries (summarize_call key s)
                  (provider_state w) (provider_requests w)) as (k & Hk & Hsent).
      destruct (send provider default_max_retries _ _ _) as [[answer st] sent0].
      simpl in Hsent. subst sent0. unfold default_max_retries in Hk.
      destruct (IH {| provider_state := st;
                      provider_calls := provider_calls w ++ [summarize_call key s];
                      provider_requests :=
                        provider_requests w ++ replicate k (summarize_call key s);
                      runs := S (runs w) |})
        as (rs & w' & sent & -> & Hlen & Hcalls & Hreqs & Hbound & Hall).
      exists (respond (uuid4 (runs w))
                match answer with
                | inl e => Err (APIError e)
                | inr c0 => Ok (VStr (completion_content c0))
                end :: rs), w', (replicate k (summarize_call key s) ++ sent)%list.
      split; [reflexivity|]. split; [simpl; by rewrite Hlen|].
      split; [rewrite Hcalls; simpl; by rewrite <- app_assoc|].
      split; [rewrite Hreqs; simpl; by rewrite <- app_assoc|].
      split.
      { rewrite length_app, length_replicate. simpl.
        change (list_omap json string accepted_text rest) with (omap accepted_text rest).
        lia. }
      apply Forall_app. split.
      * apply Forall_forall. intros req Hreq. apply elem_of_replicate in Hreq as [-> _].
        simpl. apply elem_of_cons. by left.
      * eapply Forall_impl; [exact Hall|]. intros req Hreq. simpl.
        apply elem_of_cons. by right.
    + destruct He as [e ->].
      destruct (IH w) as (rs & w' & sent & -> & Hlen & Hcalls & Hreqs & Hbound & Hall).
      exists (refuse e :: rs), w', sent.
      split; [reflexivity|]. split; [simpl; by rewrite Hlen|]. done.
Qed.

(** X10: every request to the invoke route is answered 200, 422 or 500.
    A body that passes validation is answered 200 or 500; any other body
    is answered 422 or 500 and leaves the world as it was, so the provider
    is not called for it. *)
Theorem X10_status_follows_validation (name : string) (dotenv : option bindings)
    (environ : gmap string string) (key : string) (body : json) (w : world PS) :
  load_dotenv dotenv environ !! "GROQ_API_KEY" = Some key ->
  exists r w',
    serve (run_module provider repr uuid4 name dotenv environ) (post_invoke body) w
    = Some (r, w') /\
    match accepted_text body with
    | Some _ => status r = 200%Z \/ status r = 500%Z
    | None => (status r = 422%Z \/ status r = 500%Z) /\ w' = w
    end.
Proof.
  intros H. destruct (serve_loaded provider repr uuid4 name _ _ _ H) as (c & Hc & ->).
  pose proof (invoke_endpoint_by_text key c body w Hc) as He.
  destruct (accepted_text body) as [s|].
  - rewrite He. destruct (send provider default_max_retries _ _ _) as [[[e|c0] st] sent];
      eexists _, _; (split; [reflexivity|]); [by right | by left].
  - destruct He as [e ->]. eexists _, _. split; [reflexivity|].
    split; [|done]. destruct e; simpl; auto.
Qed.

(** X11: the answer to a request depends on its [text] alone: two input
    dicts with the same text are answered alike in the same world,
    whatever other keys they hold, and no other key reaches the
    provider. *)
Theorem X11_answer_ignores_other_input_keys (name : string) (dotenv : option bindings)
    (environ : gmap string string) (d1 d2 : gmap string json) (s : string) (w : world PS) :
  d1 !! "text" = Some (JStr s) ->
  d2 !! "text" = Some (JStr s) ->
  serve (run_module provider repr uuid4 name dotenv environ)
        (post_invoke (invoke_body (JObj d1))) w
  = serve (run_module provider repr uuid4 name dotenv environ)
          (post_invoke (invoke_body (JObj d2))) w.
Proof.
  intros H1 H2.
  destruct (load_dotenv dotenv environ !! "GROQ_API_KEY") as [key|] eqn:E.
  - destruct (serve_loaded provider repr uuid4 name _ _ _ E) as (c & Hc & Hserve).
    rewrite !Hserve.
    by rewrite (invoke_endpoint_text _ _ _ key c d1 s w Hc H1),
               (invoke_endpoint_text _ _ _ key c d2 s w Hc H2).
  - by rewrite (run_module_unloaded _ _ _ E).
Qed.

(** X12: a request the provider first fails with a retryable failure and
    then answers is answered 200 with the text of the second answer: the
    chain made one call and the client sent two requests. *)
Theorem X12_retry_that_succeeds_is_200 (name : string) (dotenv : option bindings)
    (environ : gmap string string) (key : string) (d : gmap string json) (s : string)
    (w : world PS) (e : provider_error) (c0 : completion) (st1 st2 : PS) :
  load_dotenv dotenv environ !! "GROQ_API_KEY" = Some key ->
  d !! "text" = Some (JStr s) ->
  provider (provider_state w) (summarize_call key s) = (inl e, st1) ->
  retryable e = true ->
  provider st1 (summarize_call key s) = (inr c0, st2) ->
  serve (run_module provider repr uuid4 name dotenv environ)
        (post_invoke (invoke_body (JObj d))) w
  = Some ({| status := 200;
             response_body :=
               JObj {[ "output" := JStr (completion_content c0);
                       "metadata" := JObj {[ "run_id" := JStr (uuid4 (runs w)) ]} ]} |},
          {| provider_state := st2;
             provider_calls := provider_calls w ++ [summarize_call key s];
             provider_requests :=
               provider_requests w ++ [summarize_call key s; summarize_call key s];
             runs := S (runs w) |}).
Proof.
  intros H Hd H1 Hr H2.
  destruct (serve_loaded provider repr uuid4 name _ _ _ H) as (c & Hc & ->).
  pose proof (invoke_endpoint_by_text key c (invoke_body (JObj d)) w Hc) as He.
  rewrite (accepted_text_invoke_body _ _ Hd) in He. rewrite He.
  unfold default_max_retries. simpl. rewrite H1, Hr, H2. simpl.
  by rewrite <- app_assoc.
Qed.

(** X13: [kwargs] is ignored: whatever a body holds under [kwargs], it is
    answered as the body without it. *)
Theorem X13_kwargs_is_ignored (name : string) (dotenv : option bindings)
    (environ : gmap string string) (o : gmap string json) (k : json) (w : world PS) :
  serve (run_module provider repr uuid4 name dotenv environ)
        (post_invoke (JObj (<[ "kwargs" := k ]> o))) w
  = serve (run_module provider repr uuid4 name dotenv environ)
          (post_invoke (JObj (delete "kwargs" o))) w.
Proof.
  destruct (load_dotenv dotenv environ !! "GROQ_API_KEY") as [key|] eqn:E.
  - destruct (serve_loaded provider repr uuid4 name _ _ _ E) as (c & Hc & Hserve).
    rewrite !Hserve. unfold invoke_endpoint.
    rewrite <- (insert_delete_eq o "kwargs" k) at 1.
    by rewrite get_config_and_input_kwargs.
  - by rewrite (run_module_unloaded _ _ _ E).
Qed.

End Further.

(** ** The further properties on the stub *)

Lemma X2_witness :
  exists c,
    chain Stub.provider Stub.repr "gsk_test" = Ok c /\
    runnable_invoke c (VDict ∅) Stub.world0 = (Err (KeyError ["text"]), Stub.world0).
Proof.
  eexists. split; [reflexivity|].
  apply (X2_chain_without_text_raises_before_provider Stub.provider Stub.repr
           "gsk_test" _ ∅ Stub.world0); reflexivity.
Defined.

Lemma X3_witness :
  groq_api_key (load_dotenv (Some [("GROQ_API_KEY", Some "gsk_from_file")]) Stub.environ)
  = Ok "gsk_test".
Proof.
  apply (X3_environment_key_wins_over_dotenv
           (Some [("GROQ_API_KEY", Some "gsk_from_file")]) Stub.environ "gsk_test").
  reflexivity.
Defined.

Lemma X4_witness :
  groq_api_key
    (load_dotenv (Some ([("PREFIX", Some "gsk"); ("GROQ_API_KEY", Some "old")]
                        ++ ("GROQ_API_KEY", Some "${PREFIX}_${USER:-nobody}")
                           :: [("MODEL", Some "x")])%list)
                 {[ "USER" := "ada" ]})
  = Ok "gsk_ada".
Proof.
  etransitivity.
  - apply (X4_dotenv_supplies_missing_key
             [("PREFIX", Some "gsk"); ("GROQ_API_KEY", Some "old")] [("MODEL", Some "x")]
             {[ "USER" := "ada" ]} "${PREFIX}_${USER:-nobody}").
    + reflexivity.
    + simpl. intros H. apply list_elem_of_singleton in H. discriminate.
  - vm_compute. reflexivity.
Defined.

Lemma X5_witness :
  listener (run_module Stub.provider Stub.repr Stub.uuid4 "app" None Stub.environ) = None /\
  application (run_module Stub.provider Stub.repr Stub.uuid4 "app" None Stub.environ)
  = application (run_module Stub.provider Stub.repr Stub.uuid4 "__main__" None Stub.environ).
Proof.
  apply (X5_imported_module_does_not_listen Stub.provider Stub.repr Stub.uuid4
           "app" None Stub.environ).
  discriminate.
Defined.

Lemma X6_witness :
  exists a,
    application Stub.outcome = Some a /\
    middleware a = [ {| allow_origins := ["*"]; allow_methods := ["*"];
                        allow_headers := ["*"] |} ] /\
    title a = "Text Summarizer API" /\
    version a = "1.0" /\
    description a = "Text summarization using LangServe + Groq".
Proof.
  apply (X6_loaded_app_keeps_cors_and_metadata Stub.provider Stub.repr Stub.uuid4
           "__main__" None Stub.environ "gsk_test").
  reflexivity.
Defined.

Lemma X7_witness :
  serve Stub.outcome (post_invoke (invoke_body (JObj (text_input "hello")))) Stub.world0
  = Some ({| status := 200;
             response_body :=
               JObj {[ "output" := JStr "A short summary.";
                       "metadata" := JObj {[ "run_id" := JStr (Stub.uuid4 0) ]} ]} |},
          {| provider_state := 1;
             provider_calls := [summarize_call "gsk_test" "hello"];
             provider_requests := [summarize_call "gsk_test" "hello"];
             runs := 1 |}) /\
  summarize_call "gsk_test" "hello"
  = {| req_api_key := "gsk_test";
       req_model := "llama-3.1-8b-instant";
       req_temperature := 3 # 10;
       req_messages := [("user", PREFIX +:+ "hello")] |}.
Proof.
  apply (X7_success_answer_is_provider_text Stub.provider Stub.repr Stub.uuid4
           "__main__" None Stub.environ "gsk_test" (text_input "hello") "hello" Stub.world0
           {| completion_content := "A short summary.";
              completion_metadata := {[ "finish_reason" := JStr "stop" ]} |} 1);
    reflexivity.
Defined.

Lemma X8_witness :
  exists r w',
    serve Outage.outcome (post_invoke (invoke_body (JObj (text_input "hello")))) Stub.world0
    = Some (r, w') /\
    status r = 500%Z /\
    output_of r = None /\
    provider_calls w' = [summarize_call "gsk_test" "hello"] /\
    provider_requests w'
    = [summarize_call "gsk_test" "hello"; summarize_call "gsk_test" "hello";
       summarize_call "gsk_test" "hello"].
Proof.
  apply (X8_provider_failure_is_500 Outage.provider Stub.repr Stub.uuid4
           "__main__" None Stub.environ "gsk_test" (text_input "hello") "hello" Stub.world0
           TransportError).
  - reflexivity.
  - reflexivity.
  - intros st req. reflexivity.
Defined.

Lemma X9_witness :
  exists rs w' sent,
    serve_all Stub.outcome
      [invoke_body (JObj (text_input "first")); JObj ∅; invoke_body (JObj (text_input "second"))]
      Stub.world0 = Some (rs, w') /\
    length rs = 3 /\
    provider_calls w'
    = [summarize_call "gsk_test" "first"; summarize_call "gsk_test" "second"] /\
    provider_requests w' = sent /\
    2 <= length sent <= 6 /\
    Forall (fun req => req ∈ [summarize_call "gsk_test" "first";
                              summarize_call "gsk_test" "second"]) sent.
Proof.
  destruct (X9_one_call_per_accepted_request Stub.provider Stub.repr Stub.uuid4
              "__main__" None Stub.environ "gsk_test"
              [invoke_body (JObj (text_input "first")); JObj ∅;
               invoke_body (JObj (text_input "second"))] Stub.world0 eq_refl)
    as (rs & w' & sent & Hserve & Hlen & Hcalls & Hreqs & Hbound & Hall).
  exists rs, w', sent. split; [exact Hserve|]. split; [exact Hlen|].
  split; [rewrite Hcalls; vm_compute; reflexivity|].
  split; [exact Hreqs|]. split; [exact Hbound | exact Hall].
Defined.

Lemma X10_witness :
  exists r w',
    serve Stub.outcome
      (post_invoke (JObj {[ "input" := JObj (text_input "hello"); "config" := JArr [] ]}))
      Stub.world0
    = Some (r, w') /\
    ((status r = 422%Z \/ status r = 500%Z) /\ w' = Stub.world0).
Proof.
  destruct (X10_status_follows_validation Stub.provider Stub.repr Stub.uuid4
              "__main__" None Stub.environ "gsk_test"
              (JObj {[ "input" := JObj (text_input "hello"); "config" := JArr [] ]})
              Stub.world0 eq_refl)
    as (r & w' & Hserve & Hstatus).
  exists r, w'. split; [exact Hserve | exact Hstatus].
Defined.

Lemma X11_witness :
  serve Stub.outcome (post_invoke (invoke_body (JObj (text_input "hello")))) Stub.world0
  = serve Stub.outcome
      (post_invoke (invoke_body
         (JObj (<[ "api_key" := JStr "other" ]> (text_input "hello"))))) Stub.world0.
Proof.
  apply (X11_answer_ignores_other_input_keys Stub.provider Stub.repr Stub.uuid4
           "__main__" None Stub.environ _ _ "hello" Stub.world0);
    vm_compute; reflexivity.
Defined.

Lemma X12_witness :
  serve Flaky.outcome (post_invoke (invoke_body (JObj (text_input "hello")))) Stub.world0
  = Some ({| status := 200;
             response_body :=
               JObj {[ "output" := JStr "A late summary.";
                       "metadata" := JObj {[ "run_id" := JStr (Stub.uuid4 0) ]} ]} |},
          {| provider_state := 2;
             provider_calls := [summarize_call "gsk_test" "hello"];
             provider_requests :=
               [summarize_call "gsk_test" "hello"; summarize_call "gsk_test" "hello"];
             runs := 1 |}).
Proof.
  apply (X12_retry_that_succeeds_is_200 Flaky.provider Stub.repr Stub.uuid4
           "__main__" None Stub.environ "gsk_test" (text_input "hello") "hello" Stub.world0
           TransportError {| completion_content := "A late summary.";
                             completion_metadata := ∅ |} 1 2);
    reflexivity.
Defined.
